(** * sandman2/app.py: schema reflection and resource registration

    A shallow embedding of the registration pipeline of [sandman2/app.py]:
    the primary-key route type chosen in [register_model], the URL rules
    bound by [register_service], the three discovery modes of [get_app]
    ([_register_user_models], [_reflect_all], [_register_view_models]) and
    the [index] endpoint.

    The Flask application is modelled by what the module mutates: the
    list of URL rules handed to [add_url_rule], the list [app.classes],
    the module-level names that [exec(LOC, globals())] rebinds to
    generated view classes, and the tables declared on the declarative
    metadata [db.Model.metadata].  The admin views and the error handlers
    have no bearing on routing and are left out, except for the one way
    [admin.add_view] can fail in the view step. *)

From stdpp Require Import base gmap strings list sorting.
From Stdlib Require Import Ascii.

Open Scope string_scope.
Open Scope list_scope.

(* ------------------------------------------------------------------ *)
(** ** Python strings *)

(** [str.lower] on the ASCII range (other characters are left as they
    are; the theorems below use ASCII names). *)
Definition lower_ascii (c : ascii) : ascii :=
  let n := nat_of_ascii c in
  if (65 <=? n)%nat && (n <=? 90)%nat then ascii_of_nat (n + 32)%nat else c.

Fixpoint py_lower (s : string) : string :=
  match s with
  | EmptyString => EmptyString
  | String c r => String (lower_ascii c) (py_lower r)
  end.

(** [s.split(sep)] for a one-character separator: the result is never
    empty, and [''.split(',') == ['']]. *)
Fixpoint py_split (sep : ascii) (s : string) : list string :=
  match s with
  | EmptyString => [""]
  | String c r =>
      if decide (c = sep) then "" :: py_split sep r
      else match py_split sep r with
           | h :: t => String c h :: t
           | [] => [String c EmptyString]
           end
  end.

(** [sep.join(parts)]: used to build view-spec strings. *)
Fixpoint py_join (sep : ascii) (parts : list string) : string :=
  match parts with
  | [] => ""
  | [p] => p
  | p :: ps => p +:+ String sep (py_join sep ps)
  end.

Fixpoint str_has (c : ascii) (s : string) : bool :=
  match s with
  | EmptyString => false
  | String d r => if decide (d = c) then true else str_has c r
  end.

(** [s.count(c)] for one character. *)
Fixpoint str_count (c : ascii) (s : string) : nat :=
  match s with
  | EmptyString => 0
  | String d r => if decide (d = c) then S (str_count c r) else str_count c r
  end.

(** [s <= t] on [str]: code-point order, which on UTF-8 encoded strings
    is the byte order. *)
Fixpoint str_leb (s t : string) : bool :=
  match s, t with
  | EmptyString, _ => true
  | String _ _, EmptyString => false
  | String c s', String d t' =>
      if (nat_of_ascii c <? nat_of_ascii d)%nat then true
      else if (nat_of_ascii c =? nat_of_ascii d)%nat then str_leb s' t'
      else false
  end.

(* ------------------------------------------------------------------ *)
(** ** SQLAlchemy column types *)

(** The SQLAlchemy type classes a reflected or declared column can carry.
    [isinstance] against [sqltypes.String], [sqltypes.Integer] and
    [sqltypes.Numeric] follows the SQLAlchemy class hierarchy: [Text],
    [Unicode], [UnicodeText], [Enum], [CHAR], [VARCHAR] derive from
    [String]; [SmallInteger], [BigInteger] from [Integer]; [Float],
    [DECIMAL], [REAL], [DOUBLE] from [Numeric]. *)
Inductive sqltype :=
  | T_String | T_Text | T_Unicode | T_UnicodeText | T_Enum | T_CHAR | T_VARCHAR
  | T_Integer | T_SmallInteger | T_BigInteger
  | T_Numeric | T_Float | T_DECIMAL | T_REAL | T_DOUBLE
  | T_Boolean | T_Date | T_DateTime | T_Time | T_Interval
  | T_LargeBinary | T_JSON | T_NullType.

Definition isinstance_String (t : sqltype) : bool :=
  match t with
  | T_String | T_Text | T_Unicode | T_UnicodeText | T_Enum | T_CHAR
  | T_VARCHAR => true
  | _ => false
  end.

Definition isinstance_Integer (t : sqltype) : bool :=
  match t with
  | T_Integer | T_SmallInteger | T_BigInteger => true
  | _ => false
  end.

Definition isinstance_Numeric (t : sqltype) : bool :=
  match t with
  | T_Numeric | T_Float | T_DECIMAL | T_REAL | T_DOUBLE => true
  | _ => false
  end.

(* ------------------------------------------------------------------ *)
(** ** Model classes, URL rules and the application *)

Record column := {
  col_name : string;
  col_type : sqltype;
  col_nullable : bool;
  col_primary_key : bool;
}.

(** A model class: [cls.__name__], [cls.__table__.name], the
    [__methods__] entry of [cls.__dict__] (absent: [None]), the columns of
    [cls.__table__] (each also a class attribute of its name) and
    [cls.__url__]. *)
Record model := {
  m_name : string;
  m_table : string;
  m_methods : option (gset string);
  m_columns : list column;
  m_url : string;
}.

(** [cls.__table__.primary_key.columns] *)
Definition pk_cols (m : model) : list column :=
  filter (fun c => col_primary_key c = true) (m_columns m).

(** One call of [current_app.add_url_rule]: the rule, its method set, the
    model behind its [view_func], and whether [defaults={'resource_id':
    None}] was passed. *)
Record url_rule := {
  rule_path : string;
  rule_methods : gset string;
  rule_view : model;
  rule_default_none : bool;
}.

(** The start-up state: the URL map and [app.classes] (each service class
    is identified by its [__model__]), the names of the module namespace
    of sandman2/app.py that [exec(LOC, globals())] has bound to a
    generated view class, and the tables declared on [db.Model.metadata]. *)
Record flask_app := {
  app_rules : list url_rule;
  app_classes : list model;
  app_rebound : list string;
  app_declared : list string;
}.

Definition empty_app : flask_app :=
  {| app_rules := []; app_classes := []; app_rebound := []; app_declared := [] |}.

Definition add_url_rule (path : string) (m : model) (methods : gset string)
    (dflt : bool) (a : flask_app) : flask_app :=
  {| app_rules := app_rules a ++ [{| rule_path := path; rule_methods := methods;
                                     rule_view := m; rule_default_none := dflt |}];
     app_classes := app_classes a; app_rebound := app_rebound a;
     app_declared := app_declared a |}.

Definition append_class (m : model) (a : flask_app) : flask_app :=
  {| app_rules := app_rules a; app_classes := app_classes a ++ [m];
     app_rebound := app_rebound a; app_declared := app_declared a |}.

(** Tables declared on [db.Model.metadata]. *)
Definition declare_tables (tables : list string) (a : flask_app) : flask_app :=
  {| app_rules := app_rules a; app_classes := app_classes a;
     app_rebound := app_rebound a; app_declared := app_declared a ++ tables |}.

(* ------------------------------------------------------------------ *)
(** ** [register_service] and [register_model] *)

(** The method set of [register_service]: [set(cls.__model__.__methods__)]
    when the class itself declares it, else [{'GET', 'POST'}]. *)
Definition service_methods (m : model) : gset string :=
  match m_methods m with
  | Some s => s
  | None => {["GET"; "POST"]}
  end.

Definition item_path (url pk_type : string) : string :=
  url +:+ "/<" +:+ pk_type +:+ ":resource_id>".

(** [register_service] on the path where Flask accepts the endpoint of
    [view_func].  Flask's [add_url_rule] raises [AssertionError] when the
    endpoint already maps to another view function; that condition is
    [endpoint_taken] below, checked where the view step registers a
    class.  For the user-model and reflection modes the embedding takes
    the class names to be distinct up to case. *)
Definition register_service (cls : model) (primary_key_type : string) (a : flask_app) : flask_app :=
  let methods := service_methods cls in
  let url := m_url cls in
  let a1 :=
    if decide ("GET" ∈ methods)
    then add_url_rule (url +:+ "/meta") cls {["GET"]} false
           (add_url_rule (url +:+ "/") cls {["GET"]} true a)
    else a in
  let a2 :=
    if decide ("POST" ∈ methods)
    then add_url_rule (url +:+ "/") cls {["POST"]} false a1
    else a1 in
  let a3 := add_url_rule (item_path url primary_key_type) cls (methods ∖ {["POST"]}) false a2 in
  append_class cls a3.

(** The endpoint [cls.__name__.lower()] of the service class
    [model.__name__ + 'Service']. *)
Definition service_endpoint (m : model) : string := py_lower (m_name m +:+ "Service").

(** Flask's check in [add_url_rule]: each [register_service] call makes a
    fresh view function with [as_view], so an endpoint already in the URL
    map belongs to another view function. *)
Definition endpoint_taken (m : model) (a : flask_app) : bool :=
  bool_decide (service_endpoint m ∈ map (fun r => service_endpoint (rule_view r)) (app_rules a)).

(** The route type chosen in [register_model] from the primary-key columns:
    ['string'] unless there is exactly one column, whose type is then
    tested against [String], [Integer] and [Numeric] in that order. *)
Definition primary_key_type (cols : list column) : string :=
  match cols with
  | [c] =>
      let t := col_type c in
      if isinstance_String t then "string"
      else if isinstance_Integer t then "int"
      else if isinstance_Numeric t then "float"
      else "string"
  | _ => "string"
  end.

Definition set_url (cls : model) : model :=
  {| m_name := m_name cls; m_table := m_table cls; m_methods := m_methods cls;
     m_columns := m_columns cls; m_url := "/" +:+ py_lower (m_name cls) |}.

(** [register_model]: sets [cls.__url__], inspects the primary key and
    calls [register_service]; it does not check the number of key
    columns. *)
Definition register_model (cls : model) (a : flask_app) : flask_app :=
  let cls' := set_url cls in
  register_service cls' (primary_key_type (pk_cols cls')) a.

(* ------------------------------------------------------------------ *)
(** ** Python exceptions raised during start-up *)

(** The exceptions start-up and [index] can raise: [IndexError] from
    [viewpktype_tuple[i]] and from [Model.primary_key()] on a class without
    key column; [SyntaxError] from [exec] of the generated class text;
    [NoSuchTableError] from the autoloaded [Table]; [InvalidRequestError]
    from the declarative class ([metadata] is a reserved attribute name, a
    table already defined on the metadata); [AssertionError] from Flask
    for an endpoint already in use; [BlueprintNameCollision] from
    Flask-Admin's blueprint for a view named [admin] (AssertionError or
    ValueError depending on the Flask version); [TypeError] from calling
    [cls.primary_key()] when a column attribute named [primary_key]
    shadows the method; [NameRebound n]: the exception raised where the
    code loads the module-level name [n] after [exec] bound it to a
    generated view class (a TypeError for a call with positional
    arguments, an AttributeError for [db.engine], a bad base list for
    [Model], ...). *)
Inductive py_error :=
  | IndexError | SyntaxError | NoSuchTableError | InvalidRequestError
  | AssertionError | BlueprintNameCollision | TypeError
  | NameRebound (name : string).

Inductive result (A : Type) : Type :=
  | Ok : A -> result A
  | Err : py_error -> result A.
Arguments Ok {A} _.
Arguments Err {A} _.

Global Instance result_ret : MRet result := fun A x => Ok x.
Global Instance result_bind : MBind result :=
  fun A B f m => match m with Ok x => f x | Err e => Err e end.

Definition is_ok {A} (r : result A) : bool :=
  match r with Ok _ => true | Err _ => false end.

(** [t[i]] on a tuple. *)
Definition tuple_get (t : list string) (i : nat) : result string :=
  match t !! i with Some x => Ok x | None => Err IndexError end.

(** Loading module-level names in order: the first one rebound to a
    generated view class makes the statement that uses it raise. *)
Fixpoint lookup_globals (rebound names : list string) : result unit :=
  match names with
  | [] => Ok ()
  | n :: ns => if bool_decide (n ∈ rebound) then Err (NameRebound n)
               else lookup_globals rebound ns
  end.

(* ------------------------------------------------------------------ *)
(** ** [_reflect_all] and [_register_user_models] *)

(** [cls.__methods__ = {'GET'}] *)
Definition set_methods_get (cls : model) : model :=
  {| m_name := m_name cls; m_table := m_table cls; m_methods := Some {["GET"]};
     m_columns := m_columns cls; m_url := m_url cls |}.

Definition excluded (exclude_tables : list string) (cls : model) : bool :=
  bool_decide (m_table cls ∈ exclude_tables).

(** The loop of [_reflect_all] over [AutomapModel.classes];
    [exclude_tables=None] is the empty list.  Its first statement,
    [AutomapModel.prepare(db.engine, reflect=True)], is [automap_prepare]
    below. *)
Definition _reflect_all (exclude_tables : list string) (read_only : bool)
    (classes : list model) (a : flask_app) : flask_app :=
  fold_left (fun a cls =>
               if excluded exclude_tables cls then a
               else register_model (if read_only then set_methods_get cls else cls) a)
            classes a.

(** [AutomapModel.prepare(db.engine, reflect=True)] reflects every table of
    the schema onto the declarative metadata (sandman2/model.py, outside
    this source tree, builds [AutomapModel] with [automap_base] over the
    declarative class of [db.Model]). *)
Definition automap_prepare (schema_tables : list string) (a : flask_app) : flask_app :=
  declare_tables schema_tables a.

(** The registration loop of [_register_user_models].  Its [prepare] call
    for user models deriving from [AutomapModel] is not modelled. *)
Definition _register_user_models (user_models : list model) (a : flask_app) : flask_app :=
  fold_left (fun a cls => register_model cls a) user_models a.

(* ------------------------------------------------------------------ *)
(** ** [_register_view_models] *)

(** The characters [str.isidentifier()] accepts: ASCII letters and [_],
    digits after the first character, and any byte of a non-ASCII UTF-8
    sequence (Python accepts letters of every script; non-ASCII symbols
    such as the euro sign are accepted here too, and the theorems below
    use ASCII names). *)
Definition is_ident_start (c : ascii) : bool :=
  let n := nat_of_ascii c in
  (((65 <=? n) && (n <=? 90)) || ((97 <=? n) && (n <=? 122)) || (n =? 95)
   || (128 <=? n))%nat.

Definition is_ident_char (c : ascii) : bool :=
  let n := nat_of_ascii c in
  (is_ident_start c || ((48 <=? n) && (n <=? 57)))%nat.

Fixpoint all_ident_chars (s : string) : bool :=
  match s with
  | EmptyString => true
  | String c r => is_ident_char c && all_ident_chars r
  end.

Definition py_keywords : list string :=
  ["False"; "None"; "True"; "and"; "as"; "assert"; "async"; "await"; "break";
   "class"; "continue"; "def"; "del"; "elif"; "else"; "except"; "finally";
   "for"; "from"; "global"; "if"; "import"; "in"; "is"; "lambda";
   "nonlocal"; "not"; "or"; "pass"; "raise"; "return"; "try"; "while";
   "with"; "yield"].

(** An identifier that is not a keyword and not [__debug__]: the names
    the generated [class {view_name}] / [{pk_name} = Column(...)] text
    accepts. *)
Definition py_identifier (s : string) : bool :=
  match s with
  | EmptyString => false
  | String c r => is_ident_start c && all_ident_chars r
  end && negb (bool_decide (s ∈ py_keywords)) && negb (bool_decide (s = "__debug__")).

(** The branch on [pktype_str]: anything but ['string'] and ['int'] is
    [Float]; [pktype_of] gives [pktype], [pktype_str_model_of] the class
    name written into the class text. *)
Definition pktype_of (pktype_str : string) : sqltype :=
  if decide (pktype_str = "string") then T_String
  else if decide (pktype_str = "int") then T_Integer
  else T_Float.

Definition pktype_str_model_of (pktype_str : string) : string :=
  if decide (pktype_str = "string") then "String"
  else if decide (pktype_str = "int") then "Integer"
  else "Float".

(** [exec(LOC, globals())].  [exec] and [globals] are loaded first.  For
    names made of letters, digits and [_], the class text compiles iff
    both interpolated names are identifiers (other characters, such as a
    quote or a newline, change the text's structure, which this test
    does not follow).  Running the class statement loads [db], [Model],
    [Column] and the type class; the declarative base then refuses the
    reserved attribute name [metadata], and a [__tablename__] already
    defined on [db.Model.metadata]. *)
Definition exec_class (a : flask_app) (view_name pk_name pktype_str_model : string)
    : result unit :=
  _ ← lookup_globals (app_rebound a) ["exec"; "globals"];
  if py_identifier view_name && py_identifier pk_name
  then (_ ← lookup_globals (app_rebound a) ["db"; "Model"; "Column"; pktype_str_model];
        if decide (pk_name = "metadata") then Err InvalidRequestError
        else if decide (view_name ∈ app_declared a) then Err InvalidRequestError
        else Ok ())
  else Err SyntaxError.

(** [Column(pk_name, pktype, primary_key=True)] *)
Definition key_column (pk_name : string) (pktype : sqltype) : column :=
  {| col_name := pk_name; col_type := pktype; col_nullable := false;
     col_primary_key := true |}.

(** [Table(view_name, metadata, Column(pk_name, pktype, primary_key=True),
    autoload=True)]: the explicit column replaces a reflected one of the
    same name in place, or is appended. *)
Definition autoload_columns (pkc : column) (reflected : list column) : list column :=
  if existsb (fun c => bool_decide (col_name c = col_name pkc)) reflected
  then map (fun c => if decide (col_name c = col_name pkc) then pkc else c) reflected
  else reflected ++ [pkc].

(** The loop [for col in columns: ... setattr(model_class, col_name,
    db.Column(col_name, col.type, nullable=True))]. *)
Definition view_attributes (pk_name : string) (columns : list column) : list column :=
  map (fun c => {| col_name := col_name c; col_type := col_type c;
                   col_nullable := true; col_primary_key := false |})
      (filter (fun c => col_name c ≠ pk_name) columns).

(** The class [get_cls()] returns, after the [setattr] loop: the declared
    key column, then the attributes. *)
Definition view_model_class (view_name pk_name : string) (pktype : sqltype)
    (columns : list column) : model :=
  {| m_name := view_name; m_table := view_name; m_methods := None;
     m_columns := key_column pk_name pktype :: view_attributes pk_name columns;
     m_url := "" |}.

(** After a view class is registered: [exec] has bound it under the view
    name in the module namespace, and its table is declared on
    [db.Model.metadata]. *)
Definition declare_view (view_name : string) (a : flask_app) : flask_app :=
  {| app_rules := app_rules a; app_classes := app_classes a;
     app_rebound := app_rebound a ++ [view_name];
     app_declared := app_declared a ++ [view_name] |}.

(** The live database as start-up sees it: the tables of the schema
    (which [prepare(reflect=True)] reflects), the classes automap builds,
    and the columns reflected for a named table or view. *)
Record database := {
  db_tables : list string;
  automap_classes : list model;
  reflect_table : string -> option (list column);
}.

(** The loop body of [_register_view_models] from [exec] on, for a view
    name, a key name, [pktype] and [pktype_str_model].  The module-level
    names each statement loads are checked in the order the statements run
    ([g] is the namespace after [exec]; [metadata] was made by [MetaData()]
    before [exec], and the [Table] call rejects it when [MetaData] was
    rebound): [Table(...)] with [Column] and [db.engine]; the [setattr]
    loop, run when some column is not the key; then [register_model] with
    [type], [Service], [list] and [cls()] (which, for a view named
    [get_cls], is the function [get_cls] defined after the class, without
    [__table__]); [len], [isinstance], [sqltypes]; [register_service],
    whose first [current_app.add_url_rule] raises when the endpoint is
    taken; finally [admin.add_view(CustomAdminView(cls, db.session))],
    whose blueprint, named after the lowered class name, collides with
    Flask-Admin's index view [admin]. *)
Definition register_view (db : database) (view_name pk_name : string) (pktype : sqltype)
    (pktype_str_model : string) (a : flask_app) : result flask_app :=
  _ ← exec_class a view_name pk_name pktype_str_model;
  let g := app_rebound a ++ [view_name] in
  _ ← lookup_globals g ["Table"; "Column"; "db"];
  _ ← (if bool_decide ("MetaData" ∈ app_rebound a) then Err (NameRebound "MetaData")
       else Ok ());
  let pkc := key_column pk_name pktype in
  columns ← (match reflect_table db view_name with
             | Some cols => Ok (autoload_columns pkc cols)
             | None => Err NoSuchTableError
             end);
  _ ← (match view_attributes pk_name columns with
       | [] => Ok ()
       | _ :: _ => lookup_globals g ["db"; "setattr"]
       end);
  let model_class := view_model_class view_name pk_name pktype columns in
  _ ← lookup_globals g ["register_model"; "type"; "Service"; "list"];
  _ ← (if decide (view_name = "get_cls") then Err (NameRebound "get_cls") else Ok ());
  _ ← lookup_globals g ["len"; "isinstance"; "sqltypes"; "register_service"; "current_app"];
  _ ← (if endpoint_taken model_class a then Err AssertionError else Ok ());
  _ ← lookup_globals g ["CustomAdminView"; "db"];
  _ ← (if decide (py_lower view_name = "admin") then Err BlueprintNameCollision else Ok ());
  Ok (declare_view view_name (register_model model_class a)).

(** One iteration of the loop of [_register_view_models]: the tuple
    indexing and the branch on [pktype_str], then [register_view]. *)
Definition register_view_model (db : database) (viewpktype_tuple : list string)
    (a : flask_app) : result flask_app :=
  view_name ← tuple_get viewpktype_tuple 0;
  pk_name ← tuple_get viewpktype_tuple 1;
  pktype_str ← tuple_get viewpktype_tuple 2;
  register_view db view_name pk_name (pktype_of pktype_str) (pktype_str_model_of pktype_str) a.

Fixpoint _register_view_models (db : database) (l_viewpktype_tuple : list (list string))
    (a : flask_app) : result flask_app :=
  match l_viewpktype_tuple with
  | [] => Ok a
  | t :: ts => a' ← register_view_model db t a; _register_view_models db ts a'
  end.

(* ------------------------------------------------------------------ *)
(** ** [get_app] *)

(** [str_viewpktype.split(',')], each piece [.split('/')] into a tuple. *)
Definition parse_viewpktype (str_viewpktype : string) : list (list string) :=
  map (py_split "/"%char) (py_split ","%char str_viewpktype).

(** [get_app]: [user_models] and [exclude_tables] given as lists ([None]
    and [[]] are both falsy); the [schema] argument selects the database
    and [read_only] is also stored in [app.config], neither of which the
    routing depends on.  User models are declarative classes defined
    before the call, so their tables are on [db.Model.metadata]. *)
Definition get_app (db : database) (exclude_tables : list string)
    (user_models : list model) (reflect_all read_only : bool)
    (str_viewpktype : option string) : result flask_app :=
  let a :=
    match user_models with
    | _ :: _ => _register_user_models user_models
                  (declare_tables (map m_table user_models) empty_app)
    | [] => if reflect_all
            then _reflect_all exclude_tables read_only (automap_classes db)
                   (automap_prepare (db_tables db) empty_app)
            else empty_app
    end in
  match str_viewpktype with
  | None => Ok a
  | Some s => _register_view_models db (parse_viewpktype s) a
  end.

(* ------------------------------------------------------------------ *)
(** ** The [index] endpoint *)





(** Comparing two dict items by key. *)
Definition key_le (x y : string * string) : Prop := str_leb x.1 y.1 = true.

Global Instance key_le_dec : RelDecision key_le :=
  fun x y => decide (str_leb x.1 y.1 = true).



(* ------------------------------------------------------------------ *)
(** ** Reading of the claims *)

(** The routing types named by the spec; Flask calls the integer
    converter ['int']. *)
Inductive route_kind := RK_string | RK_integer | RK_float.

Definition flask_converter (k : route_kind) : string :=
  match k with RK_string => "string" | RK_integer => "int" | RK_float => "float" end.

Inductive type_category := Character | Integral | Fractional | OtherType.

(** Each column type by what it stores: character/text, integral,
    numeric/decimal/floating, or anything else. *)
Definition category (t : sqltype) : type_category :=
  match t with
  | T_String | T_Text | T_Unicode | T_UnicodeText | T_Enum | T_CHAR | T_VARCHAR => Character
  | T_Integer | T_SmallInteger | T_BigInteger => Integral
  | T_Numeric | T_Float | T_DECIMAL | T_REAL | T_DOUBLE => Fractional
  | T_Boolean | T_Date | T_DateTime | T_Time | T_Interval | T_LargeBinary
  | T_JSON | T_NullType => OtherType
  end.

(** The resolution rule as the spec states it, for a non-empty key. *)
Definition spec_route_kind (cols : list column) : route_kind :=
  if decide (1 < length cols)%nat then RK_string
  else match cols with
       | [c] => match category (col_type c) with
                | Character => RK_string
                | Integral => RK_integer
                | Fractional => RK_float
                | OtherType => RK_string
                end
       | _ => RK_string
       end.

(** The rules one [register_service] call adds, in order. *)
Definition service_rules (cls : model) (pk_type : string) : list url_rule :=
  let methods := service_methods cls in
  let url := m_url cls in
  (if decide ("GET" ∈ methods)
   then [{| rule_path := url +:+ "/"; rule_methods := {["GET"]}; rule_view := cls;
            rule_default_none := true |};
         {| rule_path := url +:+ "/meta"; rule_methods := {["GET"]}; rule_view := cls;
            rule_default_none := false |}]
   else []) ++
  (if decide ("POST" ∈ methods)
   then [{| rule_path := url +:+ "/"; rule_methods := {["POST"]}; rule_view := cls;
            rule_default_none := false |}]
   else []) ++
  [{| rule_path := item_path url pk_type; rule_methods := methods ∖ {["POST"]};
      rule_view := cls; rule_default_none := false |}].

(** A small database used to evaluate the embedding: two automapped
    tables and two views without primary-key metadata. *)
Definition demo_col (n : string) (t : sqltype) (pk : bool) : column :=
  {| col_name := n; col_type := t; col_nullable := negb pk; col_primary_key := pk |}.

Definition demo_table (n : string) (cols : list column) : model :=
  {| m_name := n; m_table := n; m_methods := None; m_columns := cols; m_url := "" |}.

Definition demo_db : database := {|
  db_tables := ["orders"; "users"];
  automap_classes := [demo_table "orders" [demo_col "id" T_Integer true];
                      demo_table "users" [demo_col "name" T_String true]];
  reflect_table := fun s =>
    if decide (s = "reports")
    then Some [demo_col "report_id" T_Integer false; demo_col "title" T_Text false;
               demo_col "amount" T_Numeric false]
    else if decide (s = "logs")
    then Some [demo_col "log_id" T_VARCHAR false; demo_col "message" T_Text false]
    else None |}.

(** A user-defined model that declares no [__methods__]. *)
Definition demo_user_model : model :=
  {| m_name := "Account"; m_table := "account"; m_methods := None;
     m_columns := [demo_col "account_id" T_Integer true; demo_col "owner" T_String false];
     m_url := "" |}.

(** The column type and the route type a view tuple's type tag names in
    the spec: ['string'], ['int'] or ['float']. *)
Definition spec_tag_type (tag : string) : sqltype :=
  if decide (tag = "int") then T_Integer
  else if decide (tag = "float") then T_Float
  else T_String.

Definition spec_tag_route (tag : string) : string :=
  if decide (tag = "int") then "int"
  else if decide (tag = "float") then "float"
  else "string".

(** The resource the spec describes for the view tuple [(v, pk, tag)]:
    [pk] as its single primary-key column of the tag's type, then every
    other reflected column as a nullable attribute. *)
Definition spec_view_resource (v pk tag : string) (reflected : list column) : model :=
  {| m_name := v; m_table := v; m_methods := None;
     m_columns :=
       {| col_name := pk; col_type := spec_tag_type tag;
          col_nullable := false; col_primary_key := true |}
       :: map (fun c => {| col_name := col_name c; col_type := col_type c;
                           col_nullable := true; col_primary_key := false |})
              (filter (fun c => col_name c ≠ pk) reflected);
     m_url := "/" +:+ py_lower v |}.

(** The string [name1/pk1/type1,name2/pk2/type2,...]. *)
Definition view_spec_string (specs : list (string * string * string)) : string :=
  py_join ","%char (map (fun '(v, pk, tag) => py_join "/"%char [v; pk; tag]) specs).

(** Names made of ASCII letters, digits and [_]. *)
Definition is_ascii_letter (c : ascii) : bool :=
  let n := nat_of_ascii c in
  (((65 <=? n) && (n <=? 90)) || ((97 <=? n) && (n <=? 122)))%nat.

Definition is_word_char (c : ascii) : bool :=
  let n := nat_of_ascii c in
  (is_ascii_letter c || (n =? 95) || ((48 <=? n) && (n <=? 57)))%nat.

Fixpoint word_chars (s : string) : bool :=
  match s with
  | EmptyString => true
  | String c r => is_word_char c && word_chars r
  end.

(** A plain name: an ASCII letter, then letters, digits and [_], and not
    a keyword. *)
Definition plain_name (s : string) : bool :=
  match s with
  | EmptyString => false
  | String c r => is_ascii_letter c && word_chars r
  end && negb (bool_decide (s ∈ py_keywords)).

(** The module-level names (and builtins) the loop body of
    [_register_view_models] loads after an [exec], and [get_cls]: a view
    class bound under one of them breaks that iteration or a later one. *)
Definition view_step_names : list string :=
  ["MetaData"; "String"; "Integer"; "Float"; "exec"; "globals"; "db"; "Model";
   "Column"; "Table"; "setattr"; "register_model"; "type"; "Service"; "list";
   "len"; "isinstance"; "sqltypes"; "register_service"; "current_app";
   "CustomAdminView"; "get_cls"].


(* ------------------------------------------------------------------ *)
(** ** Lemmas on [register_service] and [register_model] *)

Lemma register_service_rules cls t a :
  app_rules (register_service cls t a) = app_rules a ++ service_rules cls t.
Proof.
  unfold register_service, service_rules, append_class, add_url_rule.
  destruct (decide ("GET" ∈ service_methods cls));
    destruct (decide ("POST" ∈ service_methods cls));
    simpl; rewrite <-?app_assoc; reflexivity.
Qed.

Lemma register_service_classes cls t a :
  app_classes (register_service cls t a) = app_classes a ++ [cls].
Proof.
  unfold register_service, append_class, add_url_rule.
  destruct (decide ("GET" ∈ service_methods cls));
    destruct (decide ("POST" ∈ service_methods cls)); reflexivity.
Qed.

Lemma register_model_rules cls a :
  app_rules (register_model cls a)
  = app_rules a ++ service_rules (set_url cls) (primary_key_type (pk_cols cls)).
Proof. apply register_service_rules. Qed.

Lemma register_model_classes cls a :
  app_classes (register_model cls a) = app_classes a ++ [set_url cls].
Proof. apply register_service_classes. Qed.

Lemma register_model_last_rule (cls : model) (a : flask_app) :
  last (app_rules (register_model cls a)) =
  Some {| rule_path := item_path ("/" +:+ py_lower (m_name cls)) (primary_key_type (pk_cols cls));
          rule_methods := service_methods cls ∖ {["POST"]};
          rule_view := set_url cls; rule_default_none := false |}.
Proof.
  rewrite register_model_rules. unfold service_rules.
  rewrite !app_assoc. apply last_snoc.
Qed.

Lemma set_url_methods cls : service_methods (set_url cls) = service_methods cls.
Proof. reflexivity. Qed.

Lemma set_url_table cls : m_table (set_url cls) = m_table cls.
Proof. reflexivity. Qed.

Example pk_type_int :
  primary_key_type [{| col_name := "id"; col_type := T_BigInteger;
                       col_nullable := false; col_primary_key := true |}] = "int".
Proof. reflexivity. Qed.

(* ------------------------------------------------------------------ *)
(** ** Lemmas on the start-up state *)

Lemma register_service_state cls t a :
  app_rebound (register_service cls t a) = app_rebound a ∧
  app_declared (register_service cls t a) = app_declared a.
Proof.
  unfold register_service, append_class, add_url_rule.
  destruct (decide ("GET" ∈ service_methods cls));
    destruct (decide ("POST" ∈ service_methods cls)); split; reflexivity.
Qed.

Lemma register_model_state cls a :
  app_rebound (register_model cls a) = app_rebound a ∧
  app_declared (register_model cls a) = app_declared a.
Proof. apply register_service_state. Qed.

Lemma declare_view_rules v a : app_rules (declare_view v a) = app_rules a.
Proof. reflexivity. Qed.

Lemma declare_view_classes v a : app_classes (declare_view v a) = app_classes a.
Proof. reflexivity. Qed.

Lemma declare_view_rebound v a : app_rebound (declare_view v a) = app_rebound a ++ [v].
Proof. reflexivity. Qed.

Lemma declare_view_declared v a : app_declared (declare_view v a) = app_declared a ++ [v].
Proof. reflexivity. Qed.

Lemma str_length_app s t :
  String.length (s +:+ t) = (String.length s + String.length t)%nat.
Proof. induction s as [|c s IH]; simpl; [reflexivity|]. by rewrite IH. Qed.

Lemma str_app_inj_r s1 s2 t : s1 +:+ t = s2 +:+ t → s1 = s2.
Proof.
  revert s2. induction s1 as [|c s1 IH]; intros [|d s2] H; simpl in H.
  - reflexivity.
  - apply (f_equal String.length) in H. simpl in H.
    rewrite ?str_length_app in H. simpl in H. lia.
  - apply (f_equal String.length) in H. simpl in H.
    rewrite ?str_length_app in H. simpl in H. lia.
  - injection H as -> H. f_equal. by apply IH.
Qed.

Lemma py_lower_app s t : py_lower (s +:+ t) = py_lower s +:+ py_lower t.
Proof. induction s as [|c s IH]; simpl; [reflexivity|]. by rewrite IH. Qed.

(** Two service classes share an endpoint iff their names agree up to
    case. *)
Lemma endpoint_free m a :
  py_lower (m_name m) ∉ map (fun r => py_lower (m_name (rule_view r))) (app_rules a) →
  endpoint_taken m a = false.
Proof.
  intros H. unfold endpoint_taken. apply bool_decide_eq_false_2. intros Hin. apply H.
  unfold service_endpoint in Hin. rewrite list_elem_of_In, in_map_iff in Hin |- *.
  destruct Hin as [r [Hr Hin]]. exists r. split; [|exact Hin].
  rewrite !py_lower_app in Hr. exact (str_app_inj_r _ _ _ Hr).
Qed.


(* ------------------------------------------------------------------ *)
(** ** C3: the primary-key route type *)

(** C3: for every non-empty primary key, the route type chosen by
    [register_model] follows the spec's rule checked in order: more than
    one column gives [string]; a single character/text column [string],
    integral [integer] (Flask's ['int']), numeric/decimal/floating
    [float], anything else [string].  [primary_key_type] is a total
    function: no input raises. *)
Theorem primary_key_type_rule (cols : list column) (Hne : cols ≠ []) :
  primary_key_type cols = flask_converter (spec_route_kind cols).
Proof.
  unfold spec_route_kind.
  destruct cols as [|c [|c' cols]]; [congruence| |].
  - rewrite decide_False by (simpl; lia).
    destruct c as [n t nl pk]; destruct t; reflexivity.
  - rewrite decide_True by (simpl; lia). reflexivity.
Qed.

Lemma primary_key_type_rule_witness :
  [{| col_name := "id"; col_type := T_DECIMAL; col_nullable := false;
      col_primary_key := true |}] ≠ [] ∧
  primary_key_type [{| col_name := "id"; col_type := T_DECIMAL; col_nullable := false;
                       col_primary_key := true |}]
  = flask_converter (spec_route_kind
      [{| col_name := "id"; col_type := T_DECIMAL; col_nullable := false;
          col_primary_key := true |}]).
Proof. split; [discriminate | apply primary_key_type_rule; discriminate]. Defined.

(* ------------------------------------------------------------------ *)
(** ** C4: default method set and the routes it binds *)

(** C4: a resource whose class declares no [__methods__] (and to which the
    read-only override of [_reflect_all] was not applied) gets the method
    set [{GET, POST}], and [register_model] binds exactly four rules for
    it: [GET url/], [GET url/meta], [POST url/], and the item rule
    [url/<pk_type:resource_id>] for [{GET}] only, with [url] the lowered
    class name and [pk_type] the resolved route type. *)
Theorem default_methods_routes (cls : model) (a : flask_app)
    (Hnone : m_methods cls = None) :
  let url := "/" +:+ py_lower (m_name cls) in
  service_methods (set_url cls) = {["GET"; "POST"]} ∧
  app_rules (register_model cls a) = app_rules a ++
    [{| rule_path := url +:+ "/"; rule_methods := {["GET"]};
        rule_view := set_url cls; rule_default_none := true |};
     {| rule_path := url +:+ "/meta"; rule_methods := {["GET"]};
        rule_view := set_url cls; rule_default_none := false |};
     {| rule_path := url +:+ "/"; rule_methods := {["POST"]};
        rule_view := set_url cls; rule_default_none := false |};
     {| rule_path := item_path url (primary_key_type (pk_cols cls));
        rule_methods := {["GET"]}; rule_view := set_url cls;
        rule_default_none := false |}].
Proof.
  intros url. split; [unfold service_methods; simpl; rewrite Hnone; reflexivity|].
  rewrite register_model_rules. unfold service_rules, service_methods. simpl.
  rewrite Hnone.
  rewrite decide_True by set_solver. rewrite decide_True by set_solver.
  simpl. do 4 f_equal.
Qed.

Lemma default_methods_routes_witness :
  let cls := {| m_name := "Orders"; m_table := "orders"; m_methods := None;
                m_columns := [{| col_name := "id"; col_type := T_Integer;
                                 col_nullable := false; col_primary_key := true |}];
                m_url := "" |} in
  m_methods cls = None ∧
  app_rules (register_model cls empty_app) =
    [{| rule_path := "/orders/"; rule_methods := {["GET"]};
        rule_view := set_url cls; rule_default_none := true |};
     {| rule_path := "/orders/meta"; rule_methods := {["GET"]};
        rule_view := set_url cls; rule_default_none := false |};
     {| rule_path := "/orders/"; rule_methods := {["POST"]};
        rule_view := set_url cls; rule_default_none := false |};
     {| rule_path := "/orders/<int:resource_id>"; rule_methods := {["GET"]};
        rule_view := set_url cls; rule_default_none := false |}].
Proof.
  intros cls. split; [reflexivity|].
  exact (proj2 (default_methods_routes cls empty_app eq_refl)).
Defined.

(* ------------------------------------------------------------------ *)
(** ** C10: the item rule is added unconditionally *)

(** C10: whatever methods a resource allows, the last rule [register_model]
    binds is the item rule [url/<pk_type:resource_id>] with the method set
    [methods - {'POST'}], which is empty for a class declaring only
    [{'POST'}]. *)
Theorem item_rule_always_added (cls : model) (a : flask_app) :
  last (app_rules (register_model cls a)) =
  Some {| rule_path := item_path ("/" +:+ py_lower (m_name cls)) (primary_key_type (pk_cols cls));
          rule_methods := service_methods cls ∖ {["POST"]};
          rule_view := set_url cls; rule_default_none := false |}.
Proof. apply register_model_last_rule. Qed.

Example post_only_item_rule :
  let cls := {| m_name := "Log"; m_table := "log"; m_methods := Some {["POST"]};
                m_columns := []; m_url := "" |} in
  last (app_rules (register_model cls empty_app)) =
  Some {| rule_path := "/log/<string:resource_id>"; rule_methods := ∅;
          rule_view := set_url cls; rule_default_none := false |}.
Proof.
  intros cls. rewrite register_model_last_rule. reflexivity.
Qed.

(* ------------------------------------------------------------------ *)
(** ** Lemmas on [_reflect_all] *)

Lemma service_rules_view cls t r :
  r ∈ service_rules cls t → rule_view r = cls.
Proof.
  unfold service_rules.
  destruct (decide ("GET" ∈ service_methods cls));
    destruct (decide ("POST" ∈ service_methods cls));
    simpl; rewrite ?elem_of_app, ?elem_of_cons, ?elem_of_nil; intros; naive_solver.
Qed.

Lemma set_methods_get_table cls : m_table (set_methods_get cls) = m_table cls.
Proof. reflexivity. Qed.

Lemma reflect_all_cons ex ro cls classes a :
  _reflect_all ex ro (cls :: classes) a =
  _reflect_all ex ro classes
    (if excluded ex cls then a
     else register_model (if ro then set_methods_get cls else cls) a).
Proof. reflexivity. Qed.

Lemma reflect_all_classes ex ro classes a :
  app_classes (_reflect_all ex ro classes a) =
  app_classes a ++ map (fun cls => set_url (if ro then set_methods_get cls else cls))
                       (filter (fun cls => m_table cls ∉ ex) classes).
Proof.
  revert a. induction classes as [|cls classes IH]; intros a.
  - simpl. by rewrite app_nil_r.
  - rewrite reflect_all_cons, IH. unfold excluded.
    destruct (bool_decide_reflect (m_table cls ∈ ex)) as [Hin|Hin].
    + rewrite filter_cons_False by naive_solver. reflexivity.
    + rewrite filter_cons_True by naive_solver.
      rewrite register_model_classes, <-app_assoc. reflexivity.
Qed.

Lemma reflect_all_rules ex ro classes a r :
  r ∈ app_rules (_reflect_all ex ro classes a) →
  r ∈ app_rules a ∨ m_table (rule_view r) ∉ ex.
Proof.
  revert a. induction classes as [|cls classes IH]; intros a Hr.
  - by left.
  - rewrite reflect_all_cons in Hr. apply IH in Hr as [Hr|Hr]; [|by right].
    unfold excluded in Hr.
    destruct (bool_decide_reflect (m_table cls ∈ ex)) as [Hin|Hin]; [by left|].
    rewrite register_model_rules, elem_of_app in Hr. destruct Hr as [Hr|Hr]; [by left|].
    right. apply service_rules_view in Hr. rewrite Hr, set_url_table.
    destruct ro; [rewrite set_methods_get_table|]; exact Hin.
Qed.

(* ------------------------------------------------------------------ *)
(** ** C9: excluded tables are skipped *)

(** C9: full reflection registers exactly the automap classes whose table
    is not in the exclusion list, in order, and no URL rule it binds is
    served by a class of an excluded table. *)
Theorem reflect_all_skips_excluded (exclude_tables : list string) (read_only : bool)
    (classes : list model) :
  let a := _reflect_all exclude_tables read_only classes empty_app in
  app_classes a =
    map (fun cls => set_url (if read_only then set_methods_get cls else cls))
        (filter (fun cls => m_table cls ∉ exclude_tables) classes) ∧
  (∀ r, r ∈ app_rules a → m_table (rule_view r) ∉ exclude_tables).
Proof.
  split.
  - apply reflect_all_classes.
  - intros r Hr. apply reflect_all_rules in Hr as [Hr|Hr]; [|exact Hr].
    simpl in Hr. by apply elem_of_nil in Hr.
Qed.

Example reflect_all_orders_excluded :
  let orders := {| m_name := "orders"; m_table := "orders"; m_methods := None;
                   m_columns := [{| col_name := "id"; col_type := T_Integer;
                                    col_nullable := false; col_primary_key := true |}];
                   m_url := "" |} in
  _reflect_all ["orders"] false [orders] empty_app = empty_app.
Proof. reflexivity. Qed.

(* ------------------------------------------------------------------ *)
(** ** C1: the read-only flag *)

(** Full reflection with [read_only] registers every class with the
    method set [{GET}]. *)
Lemma reflect_all_read_only_get ex classes :
  Forall (fun m => service_methods m = {["GET"]})
         (app_classes (_reflect_all ex true classes empty_app)).
Proof.
  rewrite reflect_all_classes. simpl. apply Forall_map, Forall_forall.
  intros cls _. reflexivity.
Qed.

(** C1 (failing input): [get_app] applies [read_only] only inside
    [_reflect_all].  A user model declaring no [__methods__] and an ad-hoc
    view keep [{GET, POST}] with [read_only=True], and [POST /account/] is
    bound. *)
Theorem read_only_not_applied_outside_reflection :
  (∃ a, get_app demo_db [] [demo_user_model] true true None = Ok a ∧
        map service_methods (app_classes a) = [{["GET"; "POST"]}] ∧
        {| rule_path := "/account/"; rule_methods := {["POST"]};
           rule_view := set_url demo_user_model; rule_default_none := false |}
          ∈ app_rules a) ∧
  (∃ a, get_app demo_db [] [] true true (Some "reports/report_id/int") = Ok a ∧
        map service_methods (app_classes a) =
          [{["GET"]}; {["GET"]}; {["GET"; "POST"]}]).
Proof.
  split; eexists; split; try reflexivity; split; try reflexivity.
  vm_compute. repeat (first [apply list_elem_of_here | apply list_elem_of_further]).
Qed.

(* ------------------------------------------------------------------ *)
(** ** Lemmas on one iteration of the view step *)

Lemma register_view_model_unfold db v pk tag rest a :
  register_view_model db (v :: pk :: tag :: rest) a =
  register_view db v pk (pktype_of tag) (pktype_str_model_of tag) a.
Proof. reflexivity. Qed.

(** What a successful iteration did: the tuple has three fields, the view
    exists, and the view class was registered and declared. *)
Lemma register_view_model_ok db t a a' :
  register_view_model db t a = Ok a' →
  ∃ v pk tag rest cols, t = v :: pk :: tag :: rest ∧ reflect_table db v = Some cols ∧
    a' = declare_view v (register_model
           (view_model_class v pk (pktype_of tag)
              (autoload_columns (key_column pk (pktype_of tag)) cols)) a).
Proof.
  intros Hr. destruct t as [|v [|pk [|tag rest]]]; try (simpl in Hr; discriminate).
  rewrite register_view_model_unfold in Hr.
  unfold register_view, mbind, result_bind in Hr.
  repeat (case_match; simplify_eq/=).
  all: do 5 eexists; split; [reflexivity|]; split; [eassumption|]; reflexivity.
Qed.

Lemma not_rebound g n :
  Forall (fun m => m ∉ view_step_names) g → n ∈ view_step_names → n ∉ g.
Proof. rewrite Forall_forall. intros Hg Hn Hin. exact (Hg n Hin Hn). Qed.

Lemma lookup_globals_ok g ns :
  Forall (fun n => n ∉ g) ns → lookup_globals g ns = Ok ().
Proof.
  induction 1 as [|n ns Hn _ IH]; simpl; [reflexivity|].
  rewrite bool_decide_eq_false_2; [exact IH|exact Hn].
Qed.

Lemma lookup_globals_steps g ns :
  Forall (fun n => n ∉ view_step_names) g → Forall (fun n => n ∈ view_step_names) ns →
  lookup_globals g ns = Ok ().
Proof.
  intros Hg Hns. apply lookup_globals_ok. eapply Forall_impl; [exact Hns|].
  intros n Hn. exact (not_rebound g n Hg Hn).
Qed.

Ltac decide_it := cbv beta; apply (bool_decide_eq_true_1 _); vm_compute; reflexivity.
Ltac names_in := repeat (constructor; [first [assumption | decide_it] |]); constructor.

Lemma pktype_str_model_step tag : pktype_str_model_of tag ∈ view_step_names.
Proof.
  unfold pktype_str_model_of.
  destruct (decide (tag = "string")); [|destruct (decide (tag = "int"))]; decide_it.
Qed.

(** The conditions under which one view is registered. *)
Lemma register_view_ok db v pk pktype tm cols a :
  py_identifier v = true → py_identifier pk = true → pk ≠ "metadata" →
  v ∉ view_step_names → tm ∈ view_step_names → py_lower v ≠ "admin" →
  reflect_table db v = Some cols → v ∉ app_declared a →
  Forall (fun n => n ∉ view_step_names) (app_rebound a) →
  endpoint_taken (view_model_class v pk pktype (autoload_columns (key_column pk pktype) cols)) a
    = false →
  register_view db v pk pktype tm a =
  Ok (declare_view v (register_model
        (view_model_class v pk pktype (autoload_columns (key_column pk pktype) cols)) a)).
Proof.
  intros Hv Hpk Hmeta Hvs Htm Hadm Hdb Hdecl Hns Hend.
  assert (Hg : Forall (fun n => n ∉ view_step_names) (app_rebound a ++ [v])).
  { apply Forall_app; split; [exact Hns|]. by repeat constructor. }
  assert (Hgc : v ≠ "get_cls") by (intros ->; apply Hvs; decide_it).
  assert (HM : "MetaData" ∉ app_rebound a) by (apply (not_rebound _ _ Hns); decide_it).
  unfold register_view, exec_class. cbv zeta.
  rewrite (lookup_globals_steps _ ["exec"; "globals"] Hns) by names_in.
  rewrite (lookup_globals_steps _ ["db"; "Model"; "Column"; tm] Hns) by names_in.
  rewrite (lookup_globals_steps _ ["Table"; "Column"; "db"] Hg) by names_in.
  rewrite (lookup_globals_steps _ ["db"; "setattr"] Hg) by names_in.
  rewrite (lookup_globals_steps _ ["register_model"; "type"; "Service"; "list"] Hg) by names_in.
  rewrite (lookup_globals_steps _ ["len"; "isinstance"; "sqltypes"; "register_service";
                                   "current_app"] Hg) by names_in.
  rewrite (lookup_globals_steps _ ["CustomAdminView"; "db"] Hg) by names_in.
  rewrite Hv, Hpk, Hdb, (bool_decide_eq_false_2 _ HM).
  rewrite (decide_False _ _ Hmeta), (decide_False _ _ Hdecl).
  rewrite (decide_False _ _ Hgc), (decide_False _ _ Hadm).
  simpl. rewrite Hend. destruct (view_attributes _ _); reflexivity.
Qed.

Lemma register_view_model_classes db t a a' :
  register_view_model db t a = Ok a' →
  ∃ m, app_classes a' = app_classes a ++ [m].
Proof.
  intros (v & pk & tag & rest & cols & _ & _ & ->)%register_view_model_ok.
  eexists. rewrite declare_view_classes. apply register_model_classes.
Qed.

Lemma register_view_model_rules db t a a' :
  register_view_model db t a = Ok a' → ∃ rs, app_rules a' = app_rules a ++ rs.
Proof.
  intros (v & pk & tag & rest & cols & _ & _ & ->)%register_view_model_ok.
  eexists. rewrite declare_view_rules. apply register_model_rules.
Qed.

Lemma register_view_model_short db t a :
  (length t < 3)%nat → register_view_model db t a = Err IndexError.
Proof.
  intros Hlen. unfold register_view_model, tuple_get, mbind, result_bind.
  rewrite (lookup_ge_None_2 t 2) by lia.
  destruct (t !! 0), (t !! 1); reflexivity.
Qed.

Lemma register_view_models_short db ts a t :
  t ∈ ts → (length t < 3)%nat → is_ok (_register_view_models db ts a) = false.
Proof.
  revert a. induction ts as [|t' ts IH]; intros a Hin Hlen.
  - by apply elem_of_nil in Hin.
  - simpl. unfold mbind, result_bind.
    apply elem_of_cons in Hin as [->|Hin].
    + by rewrite register_view_model_short.
    + destruct (register_view_model db t' a) as [a1|e]; [|reflexivity].
      by apply IH.
Qed.

Lemma view_attributes_not_pk pk cols :
  filter (fun c => col_primary_key c = true) (view_attributes pk cols) = [].
Proof.
  unfold view_attributes. generalize (filter (fun c => col_name c ≠ pk) cols) as l.
  induction l as [|c l IH]; [reflexivity|]. simpl.
  rewrite filter_cons_False by discriminate. exact IH.
Qed.

Lemma view_pk_cols nm tb mt pkc pk cols u :
  col_primary_key pkc = true →
  pk_cols {| m_name := nm; m_table := tb; m_methods := mt;
             m_columns := pkc :: view_attributes pk cols; m_url := u |} = [pkc].
Proof.
  intros Hpk. unfold pk_cols. simpl.
  rewrite filter_cons_True by exact Hpk. by rewrite view_attributes_not_pk.
Qed.

Lemma filter_name_view_attributes pk cols :
  filter (fun c => col_name c = pk) (view_attributes pk cols) = [].
Proof.
  unfold view_attributes. induction cols as [|c cols IH]; [reflexivity|].
  simpl. destruct (decide (col_name c ≠ pk)) as [H|H].
  - rewrite filter_cons_True by exact H. simpl.
    rewrite filter_cons_False by exact H. exact IH.
  - rewrite filter_cons_False by exact H. exact IH.
Qed.

(* ------------------------------------------------------------------ *)
(** ** Lemmas on the discovery modes *)

Lemma register_user_models_classes ums a :
  app_classes (_register_user_models ums a) = app_classes a ++ map set_url ums.
Proof.
  revert a. induction ums as [|cls ums IH]; intros a.
  - simpl. by rewrite app_nil_r.
  - unfold _register_user_models. simpl. fold (_register_user_models ums (register_model cls a)).
    rewrite IH, register_model_classes, <-app_assoc. reflexivity.
Qed.

Lemma register_view_models_classes db ts a a' :
  _register_view_models db ts a = Ok a' →
  ∃ views, app_classes a' = app_classes a ++ views ∧ length views = length ts.
Proof.
  revert a. induction ts as [|t ts IH]; intros a H; simpl in H.
  - simplify_eq. exists []. by rewrite app_nil_r.
  - unfold mbind, result_bind in H. destruct (register_view_model db t a) as [a1|e] eqn:E;
      [|discriminate].
    apply register_view_model_classes in E as [m Hm].
    apply IH in H as [views [Hv Hl]].
    exists (m :: views). rewrite Hv, Hm, <-app_assoc. split; [reflexivity|]. simpl. lia.
Qed.

(* ------------------------------------------------------------------ *)
(** ** C2: order of the discovery modes *)

(** C2 (counterexample): with a non-empty user-model list, full reflection
    does not run even when [reflect_all] is set: the tables [orders] and
    [users] of [demo_db] are not registered, only the user model and then
    the view. *)
Lemma user_models_skip_reflection :
  ∃ a, get_app demo_db [] [demo_user_model] true false (Some "reports/report_id/int") = Ok a ∧
       map m_name (app_classes a) = ["Account"; "reports"] ∧
       "orders" ∉ map m_name (app_classes a).
Proof.
  eexists. split; [reflexivity|]. split; [reflexivity|].
  apply (bool_decide_eq_false_1 ("orders" ∈ _)). vm_compute. reflexivity.
Qed.

(** C2 (amended): [get_app] registers, in this order, either the explicit
    user models (when the list is non-empty; full reflection is then
    skipped whatever [reflect_all] says) or, when there are none and
    [reflect_all] is set, the reflected non-excluded tables; then one class
    per ad-hoc view tuple. *)
Theorem get_app_discovery_order (db : database) (ex : list string) (ums : list model)
    (ra ro : bool) (s : string) (a : flask_app)
    (Hok : get_app db ex ums ra ro (Some s) = Ok a) :
  ∃ views, length views = length (parse_viewpktype s) ∧
    app_classes a =
      (match ums with
       | _ :: _ => map set_url ums
       | [] => if ra
               then map (fun cls => set_url (if ro then set_methods_get cls else cls))
                        (filter (fun cls => m_table cls ∉ ex) (automap_classes db))
               else []
       end) ++ views.
Proof.
  unfold get_app in Hok. apply register_view_models_classes in Hok as [views [Hv Hl]].
  exists views. split; [exact Hl|]. rewrite Hv. f_equal.
  destruct ums as [|cls ums].
  - destruct ra; [|reflexivity]. rewrite reflect_all_classes. reflexivity.
  - rewrite register_user_models_classes. reflexivity.
Qed.

Lemma get_app_discovery_order_witness :
  ∃ a, get_app demo_db [] [demo_user_model] true false (Some "reports/report_id/int") = Ok a ∧
  ∃ views, length views = length (parse_viewpktype "reports/report_id/int") ∧
    app_classes a = map set_url [demo_user_model] ++ views.
Proof.
  eexists. split; [reflexivity|].
  exact (get_app_discovery_order demo_db [] [demo_user_model] true false
           "reports/report_id/int" _ eq_refl).
Defined.

(* ------------------------------------------------------------------ *)
(** ** C6: classes without a primary key *)

(** C6 (counterexample): [register_model] accepts a class with no
    primary-key column; it is registered with [string] routing. *)
Lemma keyless_model_registered :
  let k := demo_table "audit" [demo_col "event" T_Text false] in
  app_classes (register_model k empty_app) = [set_url k] ∧
  map rule_path (app_rules (register_model k empty_app)) =
    ["/audit/"; "/audit/meta"; "/audit/"; "/audit/<string:resource_id>"].
Proof. split; reflexivity. Qed.

(** C6 (amended): [register_model] does not check the number of
    primary-key columns; a class with none is appended to [app.classes],
    all the rules [register_service] binds for its method set are added,
    and its item rule uses the [string] route type, as for a composite
    key. *)
Theorem keyless_model_string_route (cls : model) (a : flask_app)
    (Hnopk : pk_cols cls = []) :
  app_classes (register_model cls a) = app_classes a ++ [set_url cls] ∧
  app_rules (register_model cls a) = app_rules a ++ service_rules (set_url cls) "string" ∧
  last (app_rules (register_model cls a)) =
  Some {| rule_path := item_path ("/" +:+ py_lower (m_name cls)) "string";
          rule_methods := service_methods cls ∖ {["POST"]};
          rule_view := set_url cls; rule_default_none := false |}.
Proof.
  split; [apply register_model_classes|]. split.
  - rewrite register_model_rules. unfold primary_key_type. rewrite Hnopk. reflexivity.
  - rewrite register_model_last_rule. unfold primary_key_type. rewrite Hnopk. reflexivity.
Qed.

Lemma keyless_model_string_route_witness :
  pk_cols (demo_table "audit" [demo_col "event" T_Text false]) = [] ∧
  app_rules (register_model (demo_table "audit" [demo_col "event" T_Text false]) empty_app)
    = [] ++ service_rules (set_url (demo_table "audit" [demo_col "event" T_Text false])) "string".
Proof.
  split; [reflexivity|].
  exact (proj1 (proj2 (keyless_model_string_route
                  (demo_table "audit" [demo_col "event" T_Text false]) empty_app eq_refl))).
Defined.

(* ------------------------------------------------------------------ *)
(** ** C7: malformed view specifications *)

(** C7 (counterexample): a view tuple with the unknown type tag [bogus]
    is registered with [float] routing; start-up succeeds. *)
Lemma unknown_type_tag_registered :
  ∃ a, get_app demo_db [] [] false false (Some "reports/report_id/bogus") = Ok a ∧
       map rule_path (app_rules a) =
         ["/reports/"; "/reports/meta"; "/reports/"; "/reports/<float:resource_id>"].
Proof. eexists. split; reflexivity. Qed.

(** C7 (amended): a view-spec string one of whose comma-separated tuples
    has fewer than three ['/']-separated fields aborts [get_app]; a
    tuple whose type tag is neither ['string'] nor ['int'] is not
    rejected but processed exactly as if its tag were ['float'], and when
    its registration succeeds the view class gets a single [Float]
    primary-key column and [float] item routing. *)
Theorem view_spec_short_tuple_or_float_default :
  (∀ db ex ums ra ro s t,
     t ∈ parse_viewpktype s → (length t < 3)%nat →
     is_ok (get_app db ex ums ra ro (Some s)) = false) ∧
  (∀ db v pk tag rest a,
     tag ≠ "string" → tag ≠ "int" →
     register_view_model db (v :: pk :: tag :: rest) a =
     register_view_model db (v :: pk :: "float" :: rest) a) ∧
  (∀ db v pk tag rest a a',
     tag ≠ "string" → tag ≠ "int" →
     register_view_model db (v :: pk :: tag :: rest) a = Ok a' →
     ∃ m r, app_classes a' = app_classes a ++ [m] ∧
       pk_cols m = [{| col_name := pk; col_type := T_Float;
                       col_nullable := false; col_primary_key := true |}] ∧
       last (app_rules a') = Some r ∧ rule_path r = item_path ("/" +:+ py_lower v) "float").
Proof.
  split; [|split].
  - intros db ex ums ra ro s t Hin Hlen. unfold get_app.
    by eapply register_view_models_short.
  - intros db v pk tag rest a Hs Hi. rewrite !register_view_model_unfold.
    unfold pktype_of, pktype_str_model_of.
    rewrite !(decide_False _ _ Hs), !(decide_False _ _ Hi). reflexivity.
  - intros db v pk tag rest a a' Hs Hi Hok.
    apply register_view_model_ok in Hok as (v' & pk' & tag' & rest' & cols & Ht & Hdb & ->).
    injection Ht as <- <- <- <-.
    assert (Hf : pktype_of tag = T_Float).
    { unfold pktype_of. rewrite (decide_False _ _ Hs), (decide_False _ _ Hi). reflexivity. }
    rewrite Hf. eexists _, _. split.
    { rewrite declare_view_classes. apply register_model_classes. }
    split; [unfold set_url, view_model_class; apply view_pk_cols; reflexivity|].
    split; [rewrite declare_view_rules; apply register_model_last_rule|].
    unfold view_model_class. rewrite view_pk_cols by reflexivity. reflexivity.
Qed.

Lemma view_spec_short_tuple_or_float_default_witness :
  is_ok (get_app demo_db [] [] true false (Some "reports/report_id")) = false ∧
  register_view_model demo_db ["reports"; "report_id"; "bogus"] empty_app =
    register_view_model demo_db ["reports"; "report_id"; "float"] empty_app ∧
  ∃ a', register_view_model demo_db ["reports"; "report_id"; "bogus"] empty_app = Ok a' ∧
    ∃ m r, app_classes a' = app_classes empty_app ++ [m] ∧
      pk_cols m = [{| col_name := "report_id"; col_type := T_Float;
                      col_nullable := false; col_primary_key := true |}] ∧
      last (app_rules a') = Some r ∧ rule_path r = "/reports/<float:resource_id>".
Proof.
  split; [|split].
  - apply (proj1 view_spec_short_tuple_or_float_default demo_db [] [] true false
             "reports/report_id" ["reports"; "report_id"]).
    + vm_compute. apply list_elem_of_here.
    + simpl. lia.
  - apply (proj1 (proj2 view_spec_short_tuple_or_float_default)); discriminate.
  - eexists. split; [reflexivity|].
    exact (proj2 (proj2 view_spec_short_tuple_or_float_default) demo_db "reports" "report_id"
             "bogus" [] empty_app _ ltac:(discriminate) ltac:(discriminate) eq_refl).
Defined.

(* ------------------------------------------------------------------ *)
(** ** C8: the index endpoint *)









(* ------------------------------------------------------------------ *)
(** ** Splitting a joined view-spec string *)

Lemma split_no_sep sep p :
  str_has sep p = false → py_split sep p = [p].
Proof.
  induction p as [|c p IH]; simpl; [reflexivity|].
  destruct (decide (c = sep)); [discriminate|]. intros H. by rewrite IH.
Qed.

Lemma split_app_sep sep p rest :
  str_has sep p = false →
  py_split sep (p +:+ String sep rest) = p :: py_split sep rest.
Proof.
  induction p as [|c p IH]; simpl; intros H.
  - by rewrite decide_True.
  - destruct (decide (c = sep)); [discriminate|]. by rewrite IH.
Qed.

Lemma split_join sep ps :
  ps ≠ [] → Forall (fun p => str_has sep p = false) ps →
  py_split sep (py_join sep ps) = ps.
Proof.
  induction ps as [|p [|p' ps] IH]; intros Hne Hall; [congruence| |].
  - inversion Hall; subst. simpl. by apply split_no_sep.
  - inversion Hall; subst. change (py_join sep (p :: p' :: ps))
      with (p +:+ String sep (py_join sep (p' :: ps))).
    rewrite split_app_sep by assumption. rewrite IH; [reflexivity|discriminate|assumption].
Qed.

Lemma str_has_app c s1 s2 :
  str_has c (s1 +:+ s2) = str_has c s1 || str_has c s2.
Proof.
  induction s1 as [|d s1 IH]; simpl; [reflexivity|].
  destruct (decide (d = c)); [reflexivity|exact IH].
Qed.

Lemma letter_ident_start c : is_ascii_letter c = true → is_ident_start c = true.
Proof.
  destruct c as [[][][][][][][][]]; vm_compute; intros H; first [reflexivity | discriminate H].
Qed.

Lemma word_char_ident c : is_word_char c = true → is_ident_char c = true.
Proof.
  destruct c as [[][][][][][][][]]; vm_compute; intros H; first [reflexivity | discriminate H].
Qed.

Lemma word_char_not_sep c :
  is_word_char c = true → c ≠ "/"%char ∧ c ≠ ","%char.
Proof. intros H; split; intros ->; discriminate H. Qed.

Lemma word_chars_ident s : word_chars s = true → all_ident_chars s = true.
Proof.
  induction s as [|c s IH]; simpl; [reflexivity|]. intros [Hc Hs]%andb_prop.
  by rewrite word_char_ident, IH.
Qed.

Lemma word_chars_no_sep s :
  word_chars s = true → str_has "/"%char s = false ∧ str_has ","%char s = false.
Proof.
  induction s as [|c s IH]; simpl; [auto|]. intros [Hc Hs]%andb_prop.
  destruct (word_char_not_sep c Hc) as [H1 H2].
  rewrite decide_False by exact H1. rewrite decide_False by exact H2. auto.
Qed.

Lemma plain_name_word s : plain_name s = true → word_chars s = true.
Proof.
  unfold plain_name. destruct s as [|c r]; [discriminate|].
  intros [[Hc Hr]%andb_prop _]%andb_prop. simpl. rewrite Hr, andb_true_r.
  unfold is_word_char. rewrite Hc. reflexivity.
Qed.

(** A plain name is a Python identifier. *)
Lemma plain_name_identifier s : plain_name s = true → py_identifier s = true.
Proof.
  unfold plain_name, py_identifier. destruct s as [|c r]; [discriminate|].
  intros [[Hc Hr]%andb_prop Hk]%andb_prop. rewrite Hk.
  rewrite letter_ident_start by exact Hc. rewrite word_chars_ident by exact Hr.
  rewrite (bool_decide_eq_false_2 (String c r = "__debug__")); [reflexivity|].
  intros Hd. injection Hd as -> _. discriminate Hc.
Qed.

Lemma plain_no_sep s :
  plain_name s = true → str_has "/"%char s = false ∧ str_has ","%char s = false.
Proof. intros H. exact (word_chars_no_sep s (plain_name_word s H)). Qed.

Lemma tag_no_sep tag :
  tag ∈ ["string"; "int"; "float"] →
  str_has "/"%char tag = false ∧ str_has ","%char tag = false.
Proof. rewrite !elem_of_cons, elem_of_nil. intros [->|[->|[->|[]]]]; split; reflexivity. Qed.

Lemma parse_view_spec_string specs :
  specs ≠ [] →
  Forall (fun '(v, pk, tag) => plain_name v = true ∧ plain_name pk = true ∧
                               tag ∈ ["string"; "int"; "float"]) specs →
  parse_viewpktype (view_spec_string specs) = map (fun '(v, pk, tag) => [v; pk; tag]) specs.
Proof.
  intros Hne Hall. unfold parse_viewpktype, view_spec_string.
  rewrite split_join.
  - clear Hne. induction Hall as [|[[v pk] tag] specs [Hv [Hpk Htag]] _ IH]; [reflexivity|].
    cbn [map]. f_equal; [|exact IH].
    apply split_join; [discriminate|].
    destruct (plain_no_sep v Hv), (plain_no_sep pk Hpk), (tag_no_sep tag Htag).
    repeat constructor; assumption.
  - destruct specs; [congruence|discriminate].
  - apply Forall_map. eapply Forall_impl; [exact Hall|].
    intros [[v pk] tag] [Hv [Hpk Htag]].
    destruct (plain_no_sep v Hv), (plain_no_sep pk Hpk), (tag_no_sep tag Htag).
    simpl. rewrite !str_has_app. simpl. rewrite !str_has_app. simpl.
    repeat match goal with H : str_has _ _ = false |- _ => rewrite H; clear H end.
    reflexivity.
Qed.

Lemma filter_autoload_columns pkc cols :
  filter (fun c => col_name c ≠ col_name pkc) (autoload_columns pkc cols) =
  filter (fun c => col_name c ≠ col_name pkc) cols.
Proof.
  unfold autoload_columns. destruct (existsb _ cols).
  - induction cols as [|c cols IH]; [reflexivity|]. simpl.
    destruct (decide (col_name c = col_name pkc)) as [E|E].
    + rewrite !filter_cons_False by naive_solver. exact IH.
    + rewrite !filter_cons_True by naive_solver. by f_equal.
  - rewrite filter_app. simpl. rewrite filter_cons_False by naive_solver.
    simpl. apply app_nil_r.
Qed.

Lemma pktype_of_spec tag :
  tag ∈ ["string"; "int"; "float"] →
  pktype_of tag = spec_tag_type tag ∧
  primary_key_type [{| col_name := ""; col_type := pktype_of tag;
                       col_nullable := false; col_primary_key := true |}]
  = spec_tag_route tag.
Proof. rewrite !elem_of_cons, elem_of_nil. intros [->|[->|[->|[]]]]; split; reflexivity. Qed.

Lemma primary_key_type_single n t nl pk :
  primary_key_type [{| col_name := n; col_type := t; col_nullable := nl; col_primary_key := pk |}]
  = primary_key_type [{| col_name := ""; col_type := t; col_nullable := false;
                         col_primary_key := true |}].
Proof. reflexivity. Qed.

(* ------------------------------------------------------------------ *)
(** ** C5: ad-hoc view specifications *)

Lemma register_view_tuple db v pk tag cols a :
  plain_name v = true → plain_name pk = true → pk ≠ "metadata" →
  v ∉ view_step_names → py_lower v ≠ "admin" →
  tag ∈ ["string"; "int"; "float"] → reflect_table db v = Some cols →
  v ∉ app_declared a →
  py_lower v ∉ map (fun r => py_lower (m_name (rule_view r))) (app_rules a) →
  Forall (fun n => n ∉ view_step_names) (app_rebound a) →
  ∃ cc, register_view_model db [v; pk; tag] a = Ok (declare_view v (register_model cc a)) ∧
        set_url cc = spec_view_resource v pk tag cols ∧
        primary_key_type (pk_cols cc) = spec_tag_route tag ∧ m_name cc = v.
Proof.
  intros Hv Hpk Hmeta Hvs Hadm Htag Hdb Hdecl Hfresh Hns.
  destruct (pktype_of_spec tag Htag) as [Ht Hr].
  rewrite register_view_model_unfold.
  rewrite (register_view_ok db v pk (pktype_of tag) (pktype_str_model_of tag) cols a
             (plain_name_identifier v Hv) (plain_name_identifier pk Hpk) Hmeta Hvs
             (pktype_str_model_step tag) Hadm Hdb Hdecl Hns)
    by (apply endpoint_free; exact Hfresh).
  eexists. split; [reflexivity|].
  split; [|split; [|reflexivity]].
  - unfold set_url, spec_view_resource, view_model_class, key_column. simpl.
    rewrite Ht. do 3 f_equal.
    unfold view_attributes. f_equal.
    exact (filter_autoload_columns
             {| col_name := pk; col_type := spec_tag_type tag; col_nullable := false;
                col_primary_key := true |} cols).
  - unfold view_model_class. rewrite view_pk_cols by reflexivity.
    unfold key_column. rewrite primary_key_type_single. exact Hr.
Qed.

Lemma register_view_models_spec db specs a :
  Forall (fun '(v, pk, tag) =>
            plain_name v = true ∧ plain_name pk = true ∧ pk ≠ "metadata" ∧
            (v ∉ view_step_names) ∧ py_lower v ≠ "admin" ∧ tag ∈ ["string"; "int"; "float"] ∧
            reflect_table db v ≠ None ∧ (v ∉ app_declared a) ∧
            py_lower v ∉ map (fun r => py_lower (m_name (rule_view r))) (app_rules a)) specs →
  NoDup (map (fun '(v, _, _) => py_lower v) specs) →
  Forall (fun n => n ∉ view_step_names) (app_rebound a) →
  ∃ a', _register_view_models db (map (fun '(v, pk, tag) => [v; pk; tag]) specs) a = Ok a' ∧
    app_classes a' = app_classes a ++
      map (fun '(v, pk, tag) => spec_view_resource v pk tag (default [] (reflect_table db v)))
          specs ∧
    (∃ rs, app_rules a' = app_rules a ++ rs) ∧
    Forall (fun '(v, pk, tag) => ∃ r, r ∈ app_rules a' ∧
              rule_path r = item_path ("/" +:+ py_lower v) (spec_tag_route tag)) specs.
Proof.
  revert a. induction specs as [|[[v pk] tag] specs IH]; intros a Hall Hnd Hns.
  - exists a. split; [reflexivity|]. split; [by rewrite app_nil_r|].
    split; [exists []; by rewrite app_nil_r|constructor].
  - inversion Hall as [|? ? Hhd Hrest]; subst. simpl in Hhd.
    destruct Hhd as (Hv & Hpk & Hmeta & Hvs & Hadm & Htag & Hdb & Hdecl & Hfresh).
    cbn [map] in Hnd. apply NoDup_cons in Hnd as [Hnotin Hnd].
    destruct (reflect_table db v) as [cols|] eqn:Edb; [|congruence].
    destruct (register_view_tuple db v pk tag cols a Hv Hpk Hmeta Hvs Hadm Htag Edb Hdecl
                Hfresh Hns) as [cc [Hcc [Hres [Hroute Hname]]]].
    set (a1 := declare_view v (register_model cc a)).
    assert (Hcls1 : app_classes a1 = app_classes a ++ [set_url cc])
      by exact (register_model_classes cc a).
    assert (Hrules1 : app_rules a1 =
                      app_rules a ++ service_rules (set_url cc) (primary_key_type (pk_cols cc)))
      by exact (register_model_rules cc a).
    assert (Hreb1 : app_rebound a1 = app_rebound a ++ [v]).
    { unfold a1. rewrite declare_view_rebound, (proj1 (register_model_state cc a)).
      reflexivity. }
    assert (Hdec1 : app_declared a1 = app_declared a ++ [v]).
    { unfold a1. rewrite declare_view_declared, (proj2 (register_model_state cc a)).
      reflexivity. }
    assert (Hns1 : Forall (fun n => n ∉ view_step_names) (app_rebound a1)).
    { rewrite Hreb1. apply Forall_app. split; [exact Hns|]. by repeat constructor. }
    assert (Hrest1 : Forall (fun '(v', pk', tag') =>
              plain_name v' = true ∧ plain_name pk' = true ∧ pk' ≠ "metadata" ∧
              (v' ∉ view_step_names) ∧ py_lower v' ≠ "admin" ∧
              tag' ∈ ["string"; "int"; "float"] ∧
              reflect_table db v' ≠ None ∧ (v' ∉ app_declared a1) ∧
              py_lower v' ∉ map (fun r => py_lower (m_name (rule_view r))) (app_rules a1))
              specs).
    { apply Forall_forall. intros [[v' pk'] tag'] Hin.
      rewrite Forall_forall in Hrest. specialize (Hrest _ Hin). simpl in Hrest.
      destruct Hrest as (H1 & H2 & H3 & H4 & H5 & H6 & H7 & H8 & H9).
      assert (Hlv : py_lower v' ≠ py_lower v).
      { intros Heq. apply Hnotin. apply list_elem_of_In, in_map_iff.
        exists (v', pk', tag'). split; [exact Heq|]. by apply list_elem_of_In. }
      do 7 (split; [assumption|]). split.
      - rewrite Hdec1, elem_of_app, list_elem_of_singleton.
        intros [Hd| ->]; [contradiction|congruence].
      - rewrite Hrules1, map_app, elem_of_app. intros [Hr|Hr]; [contradiction|].
        apply list_elem_of_In, in_map_iff in Hr as [r [Hr Hin']].
        apply list_elem_of_In, service_rules_view in Hin'.
        rewrite Hin' in Hr. simpl in Hr. rewrite Hname in Hr. congruence. }
    destruct (IH a1 Hrest1 Hnd Hns1) as [a' [Hrun [Hcls [[rs Hrs] Hitems]]]].
    exists a'. split; [|split; [|split]].
    + change (register_view_model db [v; pk; tag] a ≫=
                (fun a0 => _register_view_models db
                             (map (fun '(v, pk, tag) => [v; pk; tag]) specs) a0) = Ok a').
      rewrite Hcc. exact Hrun.
    + rewrite Hcls, Hcls1, Hres, <-app_assoc. simpl.
      rewrite Edb. reflexivity.
    + rewrite Hrs, Hrules1, <-app_assoc. eexists; reflexivity.
    + constructor; [|exact Hitems].
      pose proof (register_model_last_rule cc a) as Hlast.
      apply last_Some in Hlast as [l' Hl'].
      eexists. split.
      * rewrite Hrs. change (app_rules a1) with (app_rules (register_model cc a)).
        rewrite Hl', <-app_assoc. apply elem_of_app. right. apply elem_of_cons. by left.
      * simpl. rewrite Hname, Hroute. reflexivity.
Qed.

(** C5 (counterexample): the view step does not register one class per
    tuple for every string of that form: a view named twice, a key
    column named [metadata], or a view named like a module-level name
    ([db]) makes start-up fail. *)
Lemma repeated_view_spec_fails :
  get_app demo_db [] [] false false
    (Some "reports/report_id/int,reports/report_id/int") = Err InvalidRequestError ∧
  get_app demo_db [] [] false false (Some "reports/metadata/int") = Err InvalidRequestError ∧
  get_app demo_db [] [] false false (Some "db/id/int") = Err (NameRebound "db").
Proof. split; [|split]; reflexivity. Qed.

(** C5 (amended): for a non-empty list of view tuples [(v, pk, tag)]
    whose names are plain names (an ASCII letter, then ASCII letters,
    digits or [_], no keyword), whose key is not [metadata], whose view
    name is none of the module-level names the step uses, is not [admin]
    in lower case, is not a table already declared and is not, up to
    case, the name of a class already registered, whose views are pairwise
    distinct up to case, whose tags are ['string'], ['int'] or ['float'] and
    whose views exist, the string [v1/pk1/tag1,v2/pk2/tag2,...] registers
    one class per tuple, in order: the class has [pk] as its single
    primary-key column of the tag's type and every other reflected column
    as a nullable attribute, and its item rule [/v/<route:resource_id>]
    uses the tag's route type. *)
Theorem view_spec_registers_each (db : database) (specs : list (string * string * string))
    (a : flask_app) (Hne : specs ≠ [])
    (Hwf : Forall (fun '(v, pk, tag) =>
              plain_name v = true ∧ plain_name pk = true ∧ pk ≠ "metadata" ∧
              (v ∉ view_step_names) ∧ py_lower v ≠ "admin" ∧ tag ∈ ["string"; "int"; "float"] ∧
              reflect_table db v ≠ None ∧ (v ∉ app_declared a) ∧
              py_lower v ∉ map (fun r => py_lower (m_name (rule_view r))) (app_rules a)) specs)
    (Hdist : NoDup (map (fun '(v, _, _) => py_lower v) specs))
    (Hns : Forall (fun n => n ∉ view_step_names) (app_rebound a)) :
  ∃ a', _register_view_models db (parse_viewpktype (view_spec_string specs)) a = Ok a' ∧
    app_classes a' = app_classes a ++
      map (fun '(v, pk, tag) => spec_view_resource v pk tag (default [] (reflect_table db v)))
          specs ∧
    Forall (fun '(v, pk, tag) => ∃ r, r ∈ app_rules a' ∧
              rule_path r = item_path ("/" +:+ py_lower v) (spec_tag_route tag)) specs.
Proof.
  rewrite parse_view_spec_string.
  - destruct (register_view_models_spec db specs a Hwf Hdist Hns) as [a' [H1 [H2 [_ H3]]]].
    exists a'. auto.
  - exact Hne.
  - eapply Forall_impl; [exact Hwf|]. intros [[v pk] tag]. naive_solver.
Qed.

Lemma view_spec_registers_each_witness :
  ∃ a', _register_view_models demo_db
          (parse_viewpktype (view_spec_string [("reports", "report_id", "int");
                                               ("logs", "log_id", "string")])) empty_app = Ok a' ∧
    app_classes a' =
      [spec_view_resource "reports" "report_id" "int"
         [demo_col "report_id" T_Integer false; demo_col "title" T_Text false;
          demo_col "amount" T_Numeric false];
       spec_view_resource "logs" "log_id" "string"
         [demo_col "log_id" T_VARCHAR false; demo_col "message" T_Text false]] ∧
    Forall (fun '(v, pk, tag) => ∃ r, r ∈ app_rules a' ∧
              rule_path r = item_path ("/" +:+ py_lower v) (spec_tag_route tag))
      [("reports", "report_id", "int"); ("logs", "log_id", "string")].
Proof.
  apply (view_spec_registers_each demo_db
           [("reports", "report_id", "int"); ("logs", "log_id", "string")] empty_app).
  - discriminate.
  - apply (bool_decide_eq_true_1 (Forall _ _)). vm_compute. reflexivity.
  - apply (bool_decide_eq_true_1 _). vm_compute. reflexivity.
  - constructor.
Defined.

(* ================================================================== *)
(** * Further properties of the registration code *)

(* ------------------------------------------------------------------ *)
(** ** Helpers *)

Lemma service_rules_methods cls t r :
  r ∈ service_rules cls t → rule_methods r ⊆ service_methods cls.
Proof.
  unfold service_rules.
  destruct (decide ("GET" ∈ service_methods cls));
    destruct (decide ("POST" ∈ service_methods cls));
    simpl; rewrite ?elem_of_app, ?elem_of_cons, ?elem_of_nil;
    intros; repeat (destruct_or?; subst; simpl); set_solver.
Qed.

Lemma service_rules_post cls t r :
  r ∈ service_rules cls t → "POST" ∈ rule_methods r → rule_path r = m_url cls +:+ "/".
Proof.
  assert ("POST" ≠ "GET") by discriminate.
  unfold service_rules.
  destruct (decide ("GET" ∈ service_methods cls));
    destruct (decide ("POST" ∈ service_methods cls));
    simpl; rewrite ?elem_of_app, ?elem_of_cons, ?elem_of_nil;
    intros; repeat (destruct_or?; subst; simpl in *); try set_solver; reflexivity.
Qed.

Lemma service_rules_prefix cls t r :
  r ∈ service_rules cls t → ∃ suffix, rule_path r = m_url cls +:+ suffix.
Proof.
  unfold service_rules, item_path.
  destruct (decide ("GET" ∈ service_methods cls));
    destruct (decide ("POST" ∈ service_methods cls));
    simpl; rewrite ?elem_of_app, ?elem_of_cons, ?elem_of_nil;
    intros; repeat (destruct_or?; subst; simpl in *); try contradiction; eexists; reflexivity.
Qed.

(* ------------------------------------------------------------------ *)
(** ** [register_model] only appends *)

(** [register_model] never removes or changes a rule or class already
    registered: it appends a non-empty block of rules, all served by the
    new class, and appends exactly that class to [app.classes]. *)
Theorem register_model_appends (cls : model) (a : flask_app) :
  (∃ rs, app_rules (register_model cls a) = app_rules a ++ rs ∧ rs ≠ [] ∧
         Forall (fun r => rule_view r = set_url cls) rs) ∧
  app_classes (register_model cls a) = app_classes a ++ [set_url cls].
Proof.
  split; [|apply register_model_classes].
  eexists. split; [apply register_model_rules|]. split.
  - unfold service_rules. intros Hnil. apply app_eq_nil in Hnil as [_ Hnil].
    apply app_eq_nil in Hnil as [_ Hnil]. discriminate.
  - apply Forall_forall. intros r Hr. by apply service_rules_view in Hr.
Qed.

(** The number of rules [register_service] binds for a class: one item
    rule, two more ([/] and [/meta]) when [GET] is allowed, one more when
    [POST] is allowed. *)
Theorem register_model_rule_count (cls : model) (a : flask_app) :
  length (app_rules (register_model cls a)) =
  (length (app_rules a) + 1
   + (if bool_decide ("GET" ∈ service_methods cls) then 2 else 0)
   + (if bool_decide ("POST" ∈ service_methods cls) then 1 else 0))%nat.
Proof.
  rewrite register_model_rules, length_app. unfold service_rules.
  rewrite set_url_methods.
  destruct (decide ("GET" ∈ service_methods cls)) as [G|G];
    destruct (decide ("POST" ∈ service_methods cls)) as [P|P];
    rewrite ?(bool_decide_eq_true_2 _ G), ?(bool_decide_eq_false_2 _ G),
            ?(bool_decide_eq_true_2 _ P), ?(bool_decide_eq_false_2 _ P);
    simpl; lia.
Qed.

(** Every rule [register_model] binds allows only methods of the class's
    method set, and a rule that allows [POST] is the collection rule
    [url/]: [POST] is never bound on [/meta] or on the item path. *)
Theorem register_model_rule_methods (cls : model) (a : flask_app) :
  ∃ rs, app_rules (register_model cls a) = app_rules a ++ rs ∧
    Forall (fun r => rule_methods r ⊆ service_methods cls ∧
                     ("POST" ∈ rule_methods r →
                      rule_path r = "/" +:+ py_lower (m_name cls) +:+ "/")) rs.
Proof.
  eexists. split; [apply register_model_rules|].
  apply Forall_forall. intros r Hr. split.
  - rewrite <-set_url_methods. by eapply service_rules_methods.
  - intros HP. rewrite (service_rules_post _ _ _ Hr HP). reflexivity.
Qed.

(** Every rule [register_model] binds for a class lies under its URL
    prefix ["/" + cls.__name__.lower()]. *)
Theorem register_model_rule_paths (cls : model) (a : flask_app) :
  ∃ rs, app_rules (register_model cls a) = app_rules a ++ rs ∧
    Forall (fun r => ∃ suffix, rule_path r = "/" +:+ py_lower (m_name cls) +:+ suffix) rs.
Proof.
  eexists. split; [apply register_model_rules|].
  apply Forall_forall. intros r Hr.
  destruct (service_rules_prefix _ _ _ Hr) as [suffix Hs].
  exists suffix. rewrite Hs. simpl. reflexivity.
Qed.

(** With [read_only], full reflection binds no rule that allows a method
    other than [GET]. *)
Theorem reflect_all_read_only_rules (exclude_tables : list string) (classes : list model) :
  Forall (fun r => rule_methods r ⊆ {["GET"]})
         (app_rules (_reflect_all exclude_tables true classes empty_app)).
Proof.
  assert (∀ a, Forall (fun r => rule_methods r ⊆ {["GET"]}) (app_rules a) →
     Forall (fun r => rule_methods r ⊆ {["GET"]})
            (app_rules (_reflect_all exclude_tables true classes a))) as Hgen.
  { induction classes as [|cls classes IH]; intros a Ha; [exact Ha|].
    rewrite reflect_all_cons. apply IH.
    destruct (excluded exclude_tables cls); [exact Ha|].
    rewrite register_model_rules. apply Forall_app. split; [exact Ha|].
    apply Forall_forall. intros r Hr. apply service_rules_methods in Hr.
    rewrite set_url_methods in Hr. exact Hr. }
  apply Hgen. constructor.
Qed.

(* ------------------------------------------------------------------ *)
(** ** Registering one view tuple *)

(** A tuple [(view, pk, tag, ...)] made of word characters fails with
    [SyntaxError] when the view or key name is not a Python identifier
    (the generated class text does not compile), and with
    [NoSuchTableError] when both names are plain names the step can use
    but the database has no such view. *)
Theorem register_view_model_errors :
  (∀ db v pk tag rest a,
     word_chars v = true → word_chars pk = true →
     py_identifier v = false ∨ py_identifier pk = false →
     "exec" ∉ app_rebound a → "globals" ∉ app_rebound a →
     register_view_model db (v :: pk :: tag :: rest) a = Err SyntaxError) ∧
  (∀ db v pk tag rest a,
     plain_name v = true → plain_name pk = true → pk ≠ "metadata" →
     v ∉ view_step_names → v ∉ app_declared a →
     Forall (fun n => n ∉ view_step_names) (app_rebound a) →
     reflect_table db v = None →
     register_view_model db (v :: pk :: tag :: rest) a = Err NoSuchTableError).
Proof.
  split.
  - intros db v pk tag rest a _ _ Hid He Hg.
    rewrite register_view_model_unfold. unfold register_view, exec_class.
    rewrite (lookup_globals_ok (app_rebound a) ["exec"; "globals"])
      by (repeat constructor; assumption).
    destruct Hid as [-> | ->]; [reflexivity|]. rewrite andb_false_r. reflexivity.
  - intros db v pk tag rest a Hv Hpk Hmeta Hvs Hdecl Hns Hdb.
    pose proof (pktype_str_model_step tag) as Htm.
    assert (Hg : Forall (fun n => n ∉ view_step_names) (app_rebound a ++ [v])).
    { apply Forall_app; split; [exact Hns|]. by repeat constructor. }
    assert (HM : "MetaData" ∉ app_rebound a) by (apply (not_rebound _ _ Hns); decide_it).
    rewrite register_view_model_unfold. unfold register_view, exec_class. cbv zeta.
    rewrite (lookup_globals_steps _ ["exec"; "globals"] Hns) by names_in.
    rewrite (lookup_globals_steps _ ["db"; "Model"; "Column"; pktype_str_model_of tag] Hns)
      by names_in.
    rewrite (lookup_globals_steps _ ["Table"; "Column"; "db"] Hg) by names_in.
    rewrite (plain_name_identifier v Hv), (plain_name_identifier pk Hpk).
    rewrite (decide_False _ _ Hmeta), (decide_False _ _ Hdecl).
    rewrite (bool_decide_eq_false_2 _ HM), Hdb. reflexivity.
Qed.

Lemma register_view_model_errors_witness :
  register_view_model demo_db ["1report"; "id"; "int"] empty_app = Err SyntaxError ∧
  register_view_model demo_db ["missing"; "id"; "int"] empty_app = Err NoSuchTableError.
Proof.
  split.
  - apply (proj1 register_view_model_errors);
      first [reflexivity | (left; reflexivity) | apply not_elem_of_nil].
  - apply (proj2 register_view_model_errors);
      first [reflexivity | discriminate | decide_it | constructor].
Defined.

(** Whatever the reflected view looks like (its own key flags, a column
    already named like the key), a registered view class has exactly one
    primary-key column, the declared one with the tag's type; the key name
    occurs once among its columns; every other column is nullable. *)
Theorem view_class_single_key (db : database) (v pk tag : string) (rest : list string)
    (a a' : flask_app)
    (Hok : register_view_model db (v :: pk :: tag :: rest) a = Ok a') :
  ∃ m, app_classes a' = app_classes a ++ [m] ∧ m_name m = v ∧
    pk_cols m = [{| col_name := pk; col_type := pktype_of tag;
                    col_nullable := false; col_primary_key := true |}] ∧
    length (filter (fun c => col_name c = pk) (m_columns m)) = 1%nat ∧
    Forall (fun c => col_primary_key c = false → col_nullable c = true) (m_columns m).
Proof.
  apply register_view_model_ok in Hok as (v' & pk' & tag' & rest' & cols & Ht & _ & ->).
  injection Ht as <- <- <- <-.
  eexists. split; [rewrite declare_view_classes; apply register_model_classes|].
  split; [reflexivity|]. split.
  - unfold set_url, view_model_class. apply view_pk_cols. reflexivity.
  - split.
    + simpl. rewrite filter_cons_True by reflexivity. simpl.
      by rewrite filter_name_view_attributes.
    + simpl. constructor; [discriminate|].
      unfold view_attributes. apply Forall_map, Forall_forall. intros c _ _. reflexivity.
Qed.

Lemma view_class_single_key_witness :
  ∃ a' m, register_view_model demo_db ["logs"; "message"; "string"] empty_app = Ok a' ∧
    app_classes a' = [m] ∧ length (filter (fun c => col_name c = "message") (m_columns m)) = 1%nat.
Proof.
  destruct (view_class_single_key demo_db "logs" "message" "string" [] empty_app _ eq_refl)
    as [m [Hm [_ [_ [Hlen _]]]]].
  eexists _, m. split; [reflexivity|]. split; [exact Hm|exact Hlen].
Defined.

(* ------------------------------------------------------------------ *)
(** ** The view-spec string *)

Lemma split_length c s : length (py_split c s) = S (str_count c s).
Proof.
  induction s as [|d s IH]; [reflexivity|]. simpl.
  destruct (decide (d = c)); simpl; [by rewrite IH|].
  destruct (py_split c s) as [|h t]; simpl in *; [lia|exact IH].
Qed.

(** A comma-separated piece of the view-spec string with fewer than two
    ['/'] (an empty string, a trailing comma, a piece [name/pk]) makes
    [get_app] fail, whatever the other pieces and discovery modes. *)
Theorem view_spec_short_piece_aborts (db : database) (ex : list string) (ums : list model)
    (ra ro : bool) (s piece : string)
    (Hin : piece ∈ py_split ","%char s) (Hshort : (str_count "/"%char piece < 2)%nat) :
  is_ok (get_app db ex ums ra ro (Some s)) = false.
Proof.
  unfold get_app. apply (register_view_models_short _ _ _ (py_split "/"%char piece)).
  - unfold parse_viewpktype. apply list_elem_of_In. apply in_map.
    by apply list_elem_of_In.
  - rewrite split_length. lia.
Qed.

Lemma view_spec_short_piece_aborts_witness :
  "" ∈ py_split ","%char "reports/report_id/int," ∧
  (str_count "/"%char "" < 2)%nat ∧
  is_ok (get_app demo_db [] [] true false (Some "reports/report_id/int,")) = false.
Proof.
  assert (H1 : "" ∈ py_split ","%char "reports/report_id/int,").
  { vm_compute. apply list_elem_of_further, list_elem_of_here. }
  assert (H2 : (str_count "/"%char "" < 2)%nat) by (simpl; lia).
  split; [exact H1|]. split; [exact H2|].
  exact (view_spec_short_piece_aborts demo_db [] [] true false _ _ H1 H2).
Defined.

Lemma register_view_models_rules db ts a a' :
  _register_view_models db ts a = Ok a' → ∃ rs, app_rules a' = app_rules a ++ rs.
Proof.
  revert a. induction ts as [|t ts IH]; intros a H; simpl in H.
  - simplify_eq. exists []. by rewrite app_nil_r.
  - unfold mbind, result_bind in H. destruct (register_view_model db t a) as [a1|e] eqn:E;
      [|discriminate].
    apply register_view_model_rules in E as [rs1 H1]. apply IH in H as [rs2 H2].
    exists (rs1 ++ rs2). by rewrite H2, H1, app_assoc.
Qed.

(** The view step of [get_app] only adds to what the other modes
    registered: when it succeeds, the rules and classes of the run without
    a view spec are kept as a prefix, followed by exactly one class per
    comma-separated piece of the string. *)
Theorem view_step_one_class_per_piece (db : database) (ex : list string) (ums : list model)
    (ra ro : bool) (s : string) (a : flask_app)
    (Hok : get_app db ex ums ra ro (Some s) = Ok a) :
  ∃ a0, get_app db ex ums ra ro None = Ok a0 ∧
    (∃ rs, app_rules a = app_rules a0 ++ rs) ∧
    ∃ views, app_classes a = app_classes a0 ++ views ∧
             length views = S (str_count ","%char s).
Proof.
  unfold get_app in *. eexists. split; [reflexivity|]. split.
  - eapply register_view_models_rules. exact Hok.
  - apply register_view_models_classes in Hok as [views [Hv Hl]].
    exists views. split; [exact Hv|]. rewrite Hl. unfold parse_viewpktype.
    rewrite length_map. apply split_length.
Qed.

Lemma view_step_one_class_per_piece_witness :
  ∃ a, get_app demo_db [] [] true false (Some "reports/report_id/int,logs/log_id/string") = Ok a ∧
  ∃ a0, get_app demo_db [] [] true false None = Ok a0 ∧
    (∃ rs, app_rules a = app_rules a0 ++ rs) ∧
    ∃ views, app_classes a = app_classes a0 ++ views ∧
             length views = S (str_count ","%char "reports/report_id/int,logs/log_id/string").
Proof.
  eexists. split; [reflexivity|].
  exact (view_step_one_class_per_piece demo_db [] [] true false
           "reports/report_id/int,logs/log_id/string" _ eq_refl).
Defined.

(* ------------------------------------------------------------------ *)
(** ** Explicit user models *)

(** With a non-empty user-model list, [get_app] ignores [exclude_tables],
    [reflect_all] and [read_only]: the result is the same as with no
    exclusions and both flags off. *)
Theorem user_models_ignore_flags (db : database) (ex : list string) (ums : list model)
    (ra ro : bool) (vs : option string) (Hne : ums ≠ []) :
  get_app db ex ums ra ro vs = get_app db [] ums false false vs.
Proof. destruct ums; [congruence|reflexivity]. Qed.

Lemma user_models_ignore_flags_witness :
  get_app demo_db ["account"] [demo_user_model] true true None =
  get_app demo_db [] [demo_user_model] false false None.
Proof. apply user_models_ignore_flags. discriminate. Defined.
